(** * The webhook intake path of the payment API (app.py)

    A shallow embedding of the module start-up code and of the
    [/webhook] route of [app.py], and the properties of the
    specification that concern them.

    The route is stateful Python: it reads the process environment,
    calls the payment processor's SDK, writes to the logger and absorbs
    every exception in one [except Exception] clause.  It is embedded
    in a state-and-exception monad over an explicit [World].

    The [/create-checkout] and [/verify-payment] routes are embedded in
    the same way, over the same [World], with the SDK calls that create
    and retrieve a checkout session as parameters. *)

From Stdlib Require Import ZArith Strings.Byte Strings.Ascii Strings.String.
From stdpp Require Import base strings gmap list.

Local Open Scope string_scope.
Local Open Scope Z_scope.

(** ** Values *)

Set Warnings "-register-all".

(** The event returned by the SDK is a dict-like object built from the
    JSON payload; the response bodies are JSON too.  An object keeps
    its members as an association list, looked up from the left. *)
Inductive json : Type :=
| JNull
| JBool (b : bool)
| JNum (n : Z)
| JStr (s : string)
| JArr (items : list json)
| JObj (members : list (string * json)).

(** The exceptions that can travel through the route.  All of them are
    subclasses of Python's [Exception]. *)
Inductive exn : Type :=
| KeyError (key : string)
| TypeError
| ValueError (msg : string)
| SignatureVerificationError (msg : string)
| OtherException (msg : string).

Definition result (A : Type) : Type := (exn + A)%type.

(** [request.get_data()] and [request.headers.get(name)]. *)
Record Request : Type := mkRequest {
  get_data : list byte;
  headers_get : string -> option string
}.

(** A Flask response: [jsonify(body)] has status 200,
    [(jsonify(body), code)] has status [code]. *)
Record Response : Type := mkResponse {
  status : Z;
  body : json
}.

Definition jsonify (b : json) : Response := mkResponse 200 b.
Definition with_status (r : Response) (code : Z) : Response :=
  mkResponse code (body r).

(** ** Effects *)

Inductive level : Type := INFO | WARNING | ERROR.

(** An f-string is kept as its pieces: literal text, a formatted value,
    or [str(e)] of an exception. *)
Inductive piece : Type :=
| Lit (s : string)
| Fmt (v : json)
| FmtExn (e : exn).

(** The two branches of the route that handle an event kind. *)
Inductive handler : Type :=
| checkout_session_completed
| customer_subscription_created.

(** What a run leaves behind: logger calls, the call into the SDK with
    the arguments it was given, and a ghost mark at the entry of a
    handling branch. *)
Inductive effect : Type :=
| Log (lvl : level) (msg : list piece)
| Call_construct_event (payload : list byte) (sig_header : option string)
    (secret : string)
| Enter (h : handler).

(** The payment processor's SDK.  [stripe.Webhook.construct_event] is
    not part of this repository: it is taken as a parameter.  Its first
    argument is the wall clock it reads for its tolerance check; it
    either raises or returns the event. *)
Record Sdk : Type := mkSdk {
  construct_event :
    Z -> list byte -> option string -> string -> result json
}.

Section Model.

(** The system of record that handlers are meant to update
    ("Here you could update your database, ...").  Its state is part of
    the world; its type is left open. *)
Context {R : Type}.

Record World : Type := mkWorld {
  environ : gmap string string;
  clock : Z;
  trace : list effect;
  records : R
}.

(** ** The monad *)

Definition M (A : Type) : Type := World -> result A * World.

Definition ret {A} (a : A) : M A := fun w => (inr a, w).

Definition raise {A} (e : exn) : M A := fun w => (inl e, w).

Definition bind {A B} (m : M A) (k : A -> M B) : M B :=
  fun w =>
    match m w with
    | (inl e, w') => (inl e, w')
    | (inr a, w') => k a w'
    end.

Definition lift {A} (r : result A) : M A := fun w => (r, w).

(** [try: m  except Exception as e: h e], where the handler itself does
    not raise. *)
Definition try_except {A} (m : M A) (h : exn -> World -> A * World)
  : World -> A * World :=
  fun w =>
    match m w with
    | (inl e, w') => h e w'
    | (inr a, w') => (a, w')
    end.

(** The world after the effects [tr] have happened: nothing but the
    trace changes. *)
Definition push (tr : list effect) (w : World) : World :=
  mkWorld (environ w) (clock w) (trace w ++ tr) (records w).

Definition emit (ef : effect) : M unit :=
  fun w => (inr tt, push [ef] w).

End Model.

Arguments World : clear implicits.
Arguments M : clear implicits.

Declare Scope py_scope.
Delimit Scope py_scope with py.
Notation "x <- m ;; k" := (bind m (fun x => k))
  (at level 100, m at next level, k at level 200, right associativity)
  : py_scope.
Notation "m ;; k" := (bind m (fun _ => k))
  (at level 100, k at level 200, right associativity) : py_scope.
Local Open Scope py_scope.

Section Program.

Context {R : Type}.
Variable sdk : Sdk.

(** *** Library calls *)

Definition os_getenv (name : string) : M R (option string) :=
  fun w => (inr (environ w !! name), w).

(** Python truthiness of an [Optional[str]]: [None] and [''] are falsy. *)
Definition truthy (o : option string) : bool :=
  match o with
  | None => false
  | Some s => negb (String.eqb s "")
  end.

Definition logger_info (msg : list piece) : M R unit := emit (Log INFO msg).
Definition logger_warning (msg : list piece) : M R unit :=
  emit (Log WARNING msg).
Definition logger_error (msg : list piece) : M R unit := emit (Log ERROR msg).

(** [obj[key]] on a value decoded from JSON: a missing key raises
    [KeyError]; subscripting anything but an object with a string
    raises [TypeError]. *)
Fixpoint assoc (key : string) (members : list (string * json))
  : option json :=
  match members with
  | [] => None
  | (k, v) :: rest => if String.eqb k key then Some v else assoc key rest
  end.

Definition getitem (obj : json) (key : string) : result json :=
  match obj with
  | JObj members =>
      match assoc key members with
      | Some v => inr v
      | None => inl (KeyError key)
      end
  | _ => inl TypeError
  end.

(** [v == 'literal'] *)
Definition eq_str (v : json) (s : string) : bool :=
  match v with
  | JStr t => String.eqb t s
  | _ => false
  end.

(** [stripe.Webhook.construct_event(payload, sig_header, secret)] *)
Definition Webhook_construct_event (payload : list byte)
    (sig_header : option string) (secret : string) : M R json :=
  emit (Call_construct_event payload sig_header secret);;
  fun w => (construct_event sdk (clock w) payload sig_header secret, w).

(** *** Module start-up (app.py, lines 17-22) *)

Record App : Type := mkApp { api_key : string }.

Definition module_init : M R App :=
  key <- os_getenv "STRIPE_SECRET_KEY";;
  if negb (truthy key) then
    logger_error [Lit "STRIPE_SECRET_KEY environment variable not set!"];;
    raise (ValueError "Stripe configuration missing")
  else
    ret (mkApp (default "" key)).

(** *** The [/webhook] route (app.py, lines 154-186) *)

Definition received : Response := jsonify (JObj [("received", JBool true)]).

Definition webhook_failed : Response :=
  with_status (jsonify (JObj [("error", JStr "Webhook failed")])) 400.

Definition on_checkout_session_completed (event : json) : M R unit :=
  emit (Enter checkout_session_completed);;
  data <- lift (getitem event "data");;
  session <- lift (getitem data "object");;
  sid <- lift (getitem session "id");;
  logger_info [Lit "Payment completed for session "; Fmt sid].

Definition on_customer_subscription_created (event : json) : M R unit :=
  emit (Enter customer_subscription_created);;
  data <- lift (getitem event "data");;
  subscription <- lift (getitem data "object");;
  sid <- lift (getitem subscription "id");;
  logger_info [Lit "Subscription created: "; Fmt sid].

Definition handle_event (event : json) : M R unit :=
  ty <- lift (getitem event "type");;
  if eq_str ty "checkout.session.completed" then
    on_checkout_session_completed event
  else
    ty <- lift (getitem event "type");;
    if eq_str ty "customer.subscription.created" then
      on_customer_subscription_created event
    else
      ty <- lift (getitem event "type");;
      logger_info [Lit "Unhandled event type: "; Fmt ty].

Definition webhook_body (request : Request) : M R Response :=
  let payload := get_data request in
  let sig_header := headers_get request "Stripe-Signature" in
  endpoint_secret <- os_getenv "STRIPE_WEBHOOK_SECRET";;
  if negb (truthy endpoint_secret) then
    logger_warning [Lit "Webhook received but no webhook secret configured"];;
    ret received
  else
    event <- Webhook_construct_event payload sig_header (default "" endpoint_secret);;
    handle_event event;;
    ret received.

Definition on_exception (e : exn) : World R -> Response * World R :=
  fun w =>
    (webhook_failed,
     snd (logger_error [Lit "Webhook error: "; FmtExn e] w)).

Definition stripe_webhook (request : Request)
  : World R -> Response * World R :=
  try_except (webhook_body request) on_exception.

(** *** The service: load the module, then serve webhook requests *)

Fixpoint serve (requests : list Request) (w : World R)
  : list Response * World R :=
  match requests with
  | [] => ([], w)
  | rq :: rest =>
      let '(r, w1) := stripe_webhook rq w in
      let '(rs, w2) := serve rest w1 in
      (r :: rs, w2)
  end.

Definition run_service (requests : list Request) : M R (list Response) :=
  _ <- module_init;;
  fun w => let '(rs, w') := serve requests w in (inr rs, w').

(** *** Observations on a run *)

(** The effects one request adds to the trace. *)
Definition effects_of (request : Request) (w : World R) : list effect :=
  drop (List.length (trace w)) (trace (snd (stripe_webhook request w))).

End Program.

(** The handling branches entered, in order. *)
Definition entered (tr : list effect) : list handler :=
  omap (fun ef => match ef with Enter h => Some h | _ => None end) tr.

(** The payloads handed to the SDK for verification, in order. *)
Definition verified_payloads (tr : list effect) : list (list byte) :=
  omap (fun ef =>
          match ef with
          | Call_construct_event p _ _ => Some p
          | _ => None
          end) tr.

(** The effects that consume the verified event: a handling branch,
    or the [logger.info] of an unhandled kind. *)
Definition uses_event (ef : effect) : bool :=
  match ef with
  | Enter _ => true
  | Log INFO _ => true
  | _ => false
  end.

(** A computation that neither reads nor writes the world, except for
    appending to the trace, and that does not call the SDK: it has one
    outcome and one list of effects. *)
Definition world_independent {R A} (m : M R A) : Prop :=
  exists (r : result A) (tr : list effect),
    verified_payloads tr = [] /\ forall w, m w = (r, push tr w).


Definition with_env {R} (name : string) (v : option string) (w : World R)
  : World R :=
  mkWorld (match v with
           | Some s => <[name := s]> (environ w)
           | None => delete name (environ w)
           end)
          (clock w) (trace w) (records w).

(** ** The signature verifier of the specification *)

Module SignatureVerifier.

(** Modelled from the spec: the error variants of the Signature
    Verifier (section 4.1).  In the repository the verifier is the
    SDK call [stripe.Webhook.construct_event], whose code is not under
    src/. *)
Inductive VerificationError : Type :=
| MissingSignature
| MalformedSignature
| SignatureMismatch
| Expired
| MisconfiguredSecret.

(** Modelled from the spec: what section 4.1 leaves to the processor:
    the keyed message authentication code, the decoding of the
    signature header into an optional timestamp component and the
    embedded signature value(s), the parser of a verified body, and the
    clock-skew tolerance (a configuration constant). *)
Record Scheme : Type := mkScheme {
  mac : string -> list byte -> string;
  parse_header : string -> option (option Z * list string);
  parse_event : list byte -> json;
  tolerance : Z
}.

(** Modelled from the spec: "reject as expired when the timestamp is
    outside an allowed tolerance window". *)
Definition within_tolerance (S : Scheme) (now ts : Z) : bool :=
  Z.abs (now - ts) <=? tolerance S.

(** Modelled from the spec: [verify(rawBody, signatureHeader, secret)]
    of section 4.1: fail closed on an absent secret; compute the MAC
    over the raw body and compare it against the value(s) embedded in
    the header; if the header has a timestamp, reject as expired outside
    the tolerance window; parse the body only after that. *)
Definition verify (S : Scheme) (now : Z) (rawBody : list byte)
    (signatureHeader : option string) (secret : option string)
  : VerificationError + json :=
  match secret with
  | None => inl MisconfiguredSecret
  | Some key =>
      if String.eqb key "" then inl MisconfiguredSecret
      else
        match signatureHeader with
        | None => inl MissingSignature
        | Some header =>
            match parse_header S header with
            | None => inl MalformedSignature
            | Some (timestamp, signatures) =>
                if existsb (String.eqb (mac S key rawBody)) signatures then
                  match timestamp with
                  | Some ts =>
                      if within_tolerance S now ts
                      then inr (parse_event S rawBody)
                      else inl Expired
                  | None => inr (parse_event S rawBody)
                  end
                else inl SignatureMismatch
            end
        end
  end.

(** The text of a verification error, for the internal log only. *)
Definition describe (err : VerificationError) : string :=
  match err with
  | MissingSignature => "missing signature"
  | MalformedSignature => "malformed signature"
  | SignatureMismatch => "signature mismatch"
  | Expired => "timestamp outside the tolerance window"
  | MisconfiguredSecret => "secret not configured"
  end.

(** Modelled from the spec: the verifier in the place of the SDK call
    of the route: a verification error is raised as an exception. *)
Definition as_sdk (S : Scheme) : Sdk :=
  mkSdk (fun now payload sig_header secret =>
           match verify S now payload sig_header (Some secret) with
           | inl err => inl (SignatureVerificationError (describe err))
           | inr event => inr event
           end).

End SignatureVerifier.

(** ** Concrete inputs *)

Module Sample.

(** Test doubles for the SDK call: one raises on every notification,
    with a reason that depends on the presence of the header; one
    returns a given event for every notification. *)
Definition sdk_rejecting : Sdk :=
  mkSdk (fun _ _ sig_header _ =>
           match sig_header with
           | None =>
               inl (SignatureVerificationError
                      "Unable to extract timestamp and signatures from header")
           | Some _ =>
               inl (SignatureVerificationError
                      "No signatures found matching the expected signature for payload")
           end).

Definition sdk_returning (event : json) : Sdk :=
  mkSdk (fun _ _ _ _ => inr event).

(** A toy scheme for the verifier of the specification: the "MAC" is
    the secret followed by the body, the header reads
    [t=<decimal>,v1=<signature>]. *)
Definition toy_mac (secret : string) (rawBody : list byte) : string :=
  secret ++ "|" ++ string_of_list_byte rawBody.

Fixpoint cut (c : ascii) (s : string) : string * option string :=
  match s with
  | EmptyString => (EmptyString, None)
  | String a rest =>
      if Ascii.eqb a c then (EmptyString, Some rest)
      else let '(before, after) := cut c rest in (String a before, after)
  end.

Definition digit (a : ascii) : option Z :=
  let n := Z.of_nat (nat_of_ascii a) in
  if (48 <=? n) && (n <=? 57) then Some (n - 48) else None.

Fixpoint decimal (acc : Z) (s : string) : option Z :=
  match s with
  | EmptyString => Some acc
  | String a rest =>
      match digit a with
      | Some d => decimal (10 * acc + d) rest
      | None => None
      end
  end.

Definition toy_parse_header (header : string)
  : option (option Z * list string) :=
  match cut "," header with
  | (String "t" (String "=" digits), Some (String "v" (String "1" (String "=" sig)))) =>
      match digits, decimal 0 digits with
      | String _ _, Some ts => Some (Some ts, [sig])
      | _, _ => None
      end
  | _ => None
  end.

Definition evt_checkout : json :=
  JObj [("id", JStr "evt_1");
        ("type", JStr "checkout.session.completed");
        ("data", JObj [("object", JObj [("id", JStr "cs_test_1")])])].

Definition evt_invoice_paid : json :=
  JObj [("id", JStr "evt_2");
        ("type", JStr "invoice.paid");
        ("data", JObj [("object", JObj [("id", JStr "in_1")])])].

(** A checkout event whose session object carries no [id]. *)
Definition evt_checkout_no_session_id : json :=
  JObj [("id", JStr "evt_3");
        ("type", JStr "checkout.session.completed");
        ("data", JObj [("object", JObj [])])].

Definition toy_scheme : SignatureVerifier.Scheme :=
  SignatureVerifier.mkScheme toy_mac toy_parse_header
    (fun _ => evt_checkout) 300.

Definition body_1 : list byte := list_byte_of_string "{}".

Definition request_unsigned : Request :=
  mkRequest body_1 (fun _ => None).

Definition request_signed_at_1000 : Request :=
  mkRequest body_1
    (fun name =>
       if String.eqb name "Stripe-Signature"
       then Some "t=1000,v1=whsec_test|{}"
       else None).

Definition request_bad_signature : Request :=
  mkRequest body_1
    (fun name =>
       if String.eqb name "Stripe-Signature"
       then Some "t=1000,v1=forged"
       else None).

Definition env_both : gmap string string :=
  <["STRIPE_SECRET_KEY" := "sk_test_1"]>
    (<["STRIPE_WEBHOOK_SECRET" := "whsec_test"]> ∅).

Definition env_no_webhook_secret : gmap string string :=
  <["STRIPE_SECRET_KEY" := "sk_test_1"]> ∅.

Definition env_empty_api_key : gmap string string :=
  <["STRIPE_SECRET_KEY" := ""]>
    (<["STRIPE_WEBHOOK_SECRET" := "whsec_test"]> ∅).

Definition world (env : gmap string string) (now : Z) : World unit :=
  mkWorld env now [] tt.

End Sample.

(** ** The checkout and payment-verification routes *)

(** [request.get_json()]: the parsed body, or the exception Flask raises
    for a body it does not parse. *)
Record JsonRequest : Type := mkJsonRequest {
  get_json : result json
}.

(** What can be raised inside these two routes: an error of the payment
    processor ([stripe.error.StripeError] or a subclass), or any other
    Python exception. *)
Inductive raised : Type :=
| StripeError (msg : string)
| Other (e : exn).

(** [except stripe.error.StripeError] *)
Definition is_StripeError (r : raised) : bool :=
  match r with
  | StripeError _ => true
  | Other (SignatureVerificationError _) => true
  | Other _ => false
  end.

(** [str(e)] inside an f-string *)
Definition fmt_raised (r : raised) : piece :=
  match r with
  | StripeError msg => Fmt (JStr msg)
  | Other e => FmtExn e
  end.

(** An [AttributeError] for the attribute [name]. *)
Definition AttributeError (name : string) : exn :=
  OtherException ("AttributeError: " ++ name).

(** The calls of the SDK the two routes make.  The processor holds the
    payment state: a call reads and may change the [records] of the
    world, and raises or returns a session object. *)
Record Checkout (R : Type) : Type := mkCheckout {
  sessions_create : json -> R -> (raised + json) * R;
  sessions_retrieve : json -> R -> (raised + json) * R
}.

Arguments sessions_create {R} _ _ _.
Arguments sessions_retrieve {R} _ _ _.

(** *** Python operations on decoded JSON *)

(** [obj.get(key, dflt)]: only a dict has [get]. *)
Definition dict_get (obj : json) (key : string) (dflt : json) : result json :=
  match obj with
  | JObj members => inr (default dflt (assoc key members))
  | _ => inl (AttributeError "get")
  end.

(** [obj.name] on an object of the SDK: the attribute is the member of
    that name. *)
Definition getattr (obj : json) (name : string) : result json :=
  match obj with
  | JObj members =>
      match assoc name members with
      | Some v => inr v
      | None => inl (AttributeError name)
      end
  | _ => inl (AttributeError name)
  end.

(** [s.lower()].  A string is its UTF-8 bytes and only [A]-[Z] change;
    Python also lowers letters outside ASCII, which occur in no key of
    [PRICE_IDS]. *)
Definition lower_ascii (a : ascii) : ascii :=
  let n := nat_of_ascii a in
  if ((65 <=? n)%nat && (n <=? 90)%nat)%bool
  then ascii_of_nat (n + 32)
  else a.

Fixpoint lower (s : string) : string :=
  match s with
  | EmptyString => EmptyString
  | String a rest => String (lower_ascii a) (lower rest)
  end.

Definition str_lower (v : json) : result string :=
  match v with
  | JStr s => inr (lower s)
  | _ => inl (AttributeError "lower")
  end.

(** [v + 'literal'] *)
Definition add_str (v : json) (s : string) : result json :=
  match v with
  | JStr t => inr (JStr (t ++ s))
  | _ => inl TypeError
  end.

(** Truthiness of a decoded JSON value. *)
Definition json_truthy (v : json) : bool :=
  match v with
  | JNull => false
  | JBool b => b
  | JNum n => negb (n =? 0)
  | JStr s => negb (String.eqb s "")
  | JArr items => match items with [] => false | _ => true end
  | JObj members => match members with [] => false | _ => true end
  end.

(** [d[key] = v] on a dict that has no such key yet. *)
Definition dict_add (d : json) (key : string) (v : json) : json :=
  match d with
  | JObj members => JObj (members ++ [(key, v)])
  | _ => d
  end.

(** *** Constants *)

Definition PRICE_IDS : gmap string string :=
  <["basic" := "price_1RSQMiHYveGHjElbaTQctoS0"]>
    (<["premium" := "price_1RSQMiHYveGHjElbaTQctoS0"]> ∅).

Definition dquote : string := String "034"%char EmptyString.

Definition invalid_plan_type : Response :=
  with_status
    (jsonify
       (JObj [("success", JBool false);
              ("error",
               JStr ("Invalid plan type. Must be " ++ dquote ++ "basic"
                     ++ dquote ++ " or " ++ dquote ++ "premium" ++ dquote))]))
    400.

Definition payment_system_error : Response :=
  with_status
    (jsonify
       (JObj [("success", JBool false);
              ("error", JStr "Payment system error. Please try again.")]))
    400.

Definition internal_server_error : Response :=
  with_status
    (jsonify
       (JObj [("success", JBool false);
              ("error", JStr "Internal server error")]))
    500.

Definition session_id_required : Response :=
  with_status
    (jsonify
       (JObj [("success", JBool false);
              ("error", JStr "Session ID required")]))
    400.

Definition unable_to_verify : Response :=
  with_status
    (jsonify
       (JObj [("success", JBool false);
              ("error", JStr "Unable to verify payment")]))
    400.

Definition verification_failed : Response :=
  with_status
    (jsonify
       (JObj [("success", JBool false);
              ("error", JStr "Verification failed")]))
    500.

Section Payments.

Context {R : Type}.
Variable stripe_checkout : Checkout R.

(** *** The monad of the two routes *)

Definition P (A : Type) : Type := World R -> (raised + A) * World R.

Definition pret {A} (a : A) : P A := fun w => (inr a, w).

Definition pbind {A B} (m : P A) (k : A -> P B) : P B :=
  fun w =>
    match m w with
    | (inl r, w') => (inl r, w')
    | (inr a, w') => k a w'
    end.

(** A Python operation that raises or returns. *)
Definition py {A} (r : result A) : P A :=
  fun w =>
    (match r with
     | inl e => inl (Other e)
     | inr a => inr a
     end, w).

Definition plog (lvl : level) (msg : list piece) : P unit :=
  fun w => (inr tt, push [Log lvl msg] w).

(** A call of the SDK, on the state of the processor. *)
Definition call (f : R -> (raised + json) * R) : P json :=
  fun w =>
    let '(r, s) := f (records w) in
    (r, mkWorld (environ w) (clock w) (trace w) s).

Declare Scope pay_scope.
Notation "x <- m ;; k" := (pbind m (fun x => k))
  (at level 100, m at next level, k at level 200, right associativity)
  : pay_scope.
Notation "m ;; k" := (pbind m (fun _ => k))
  (at level 100, k at level 200, right associativity) : pay_scope.
Local Open Scope pay_scope.

(** *** [/create-checkout] (app.py, lines 39-106) *)

(** The dict [session_params], before the optional customer email. *)
Definition session_params (plan_type price_id : string)
    (success_url cancel_url app_version user_id : json) : json :=
  JObj [("payment_method_types", JArr [JStr "card"]);
        ("line_items",
         JArr [JObj [("price", JStr price_id); ("quantity", JNum 1)]]);
        ("mode", JStr "subscription");
        ("success_url", success_url);
        ("cancel_url", cancel_url);
        ("metadata",
         JObj [("plan_type", JStr plan_type);
               ("app_version", app_version);
               ("user_id", user_id)])].

Definition create_checkout_body (request : JsonRequest) : P Response :=
  data <- py (get_json request);;
  plan_type_given <- py (dict_get data "plan_type" (JStr "premium"));;
  plan_type <- py (str_lower plan_type_given);;
  success_url <-
    py (dict_get data "success_url" (JStr "https://yourdomain.com/success"));;
  cancel_url <-
    py (dict_get data "cancel_url" (JStr "https://yourdomain.com/cancel"));;
  customer_email <- py (dict_get data "customer_email" JNull);;
  match PRICE_IDS !! plan_type with
  | None => pret invalid_plan_type
  | Some price_id =>
      success_url_session <-
        py (add_str success_url "?session_id={CHECKOUT_SESSION_ID}");;
      app_version <- py (dict_get data "app_version" (JStr "unknown"));;
      user_id <- py (dict_get data "user_id" (JStr "anonymous"));;
      let params :=
        session_params plan_type price_id success_url_session cancel_url
          app_version user_id in
      let params :=
        if json_truthy customer_email
        then dict_add params "customer_email" customer_email
        else params in
      session <- call (sessions_create stripe_checkout params);;
      logged_id <- py (getattr session "id");;
      plog INFO [Lit "Created checkout session "; Fmt logged_id;
                 Lit " for plan: "; Fmt (JStr plan_type)];;
      url <- py (getattr session "url");;
      id <- py (getattr session "id");;
      pret (jsonify (JObj [("success", JBool true);
                           ("checkout_url", url);
                           ("session_id", id);
                           ("plan_type", JStr plan_type)]))
  end.

Definition create_checkout (request : JsonRequest)
  : World R -> Response * World R :=
  fun w =>
    match create_checkout_body request w with
    | (inr response, w') => (response, w')
    | (inl r, w') =>
        if is_StripeError r then
          (payment_system_error,
           push [Log ERROR [Lit "Stripe error: "; fmt_raised r]] w')
        else
          (internal_server_error,
           push [Log ERROR [Lit "Unexpected error: "; fmt_raised r]] w')
    end.

(** *** [/verify-payment] (app.py, lines 108-152) *)

Definition verify_payment_body (request : JsonRequest) : P Response :=
  data <- py (get_json request);;
  session_id <- py (dict_get data "session_id" JNull);;
  if negb (json_truthy session_id) then pret session_id_required
  else
    session <- call (sessions_retrieve stripe_checkout session_id);;
    payment_status <- py (getattr session "payment_status");;
    if eq_str payment_status "paid" then
      plog INFO [Lit "Payment verified for session "; Fmt session_id];;
      customer_details <- py (getattr session "customer_details");;
      customer_email <-
        (if json_truthy customer_details
         then py (getattr customer_details "email")
         else pret JNull);;
      metadata <- py (getattr session "metadata");;
      plan_type <- py (dict_get metadata "plan_type" (JStr "unknown"));;
      pret (jsonify (JObj [("success", JBool true);
                           ("payment_status", JStr "paid");
                           ("customer_email", customer_email);
                           ("plan_type", plan_type)]))
    else
      payment_status <- py (getattr session "payment_status");;
      pret (jsonify (JObj [("success", JBool false);
                           ("payment_status", payment_status);
                           ("error", JStr "Payment not completed")])).

Definition verify_payment (request : JsonRequest)
  : World R -> Response * World R :=
  fun w =>
    match verify_payment_body request w with
    | (inr response, w') => (response, w')
    | (inl r, w') =>
        if is_StripeError r then
          (unable_to_verify,
           push [Log ERROR
                   [Lit "Stripe error during verification: "; fmt_raised r]] w')
        else
          (verification_failed,
           push [Log ERROR
                   [Lit "Error during payment verification: "; fmt_raised r]] w')
    end.

End Payments.

(** Concrete inputs for the two routes. *)
Module PaySample.

(** A processor that keeps the number of sessions created so far as its
    state, and hands out a session for every call. *)
Definition counting : Checkout nat :=
  mkCheckout nat
    (fun params n =>
       (inr (JObj [("id", JStr "cs_test_1");
                   ("url", JStr "https://checkout.example/cs_test_1")]),
        S n))
    (fun session_id n =>
       (inr (JObj [("id", session_id);
                   ("payment_status", JStr "paid");
                   ("customer_details",
                    JObj [("email", JStr "a@example.com")]);
                   ("metadata", JObj [("plan_type", JStr "basic")])]),
        n)).

(** A processor whose calls raise a [StripeError]. *)
Definition failing : Checkout nat :=
  mkCheckout nat
    (fun _ n => (inl (StripeError "No such price"), n))
    (fun _ n => (inl (StripeError "No such checkout.session"), n)).

Definition world (n : nat) : World nat := mkWorld ∅ 0 [] n.

Definition post (b : json) : JsonRequest := mkJsonRequest (inr b).

Definition gold : JsonRequest :=
  post (JObj [("plan_type", JStr "gold"); ("success_url", JNum 7)]).

Definition empty_object : JsonRequest := post (JObj []).

Definition no_json : JsonRequest :=
  mkJsonRequest (inl (OtherException "415 Unsupported Media Type")).

Definition with_session_id : JsonRequest :=
  post (JObj [("session_id", JStr "cs_test_1")]).

(** Two more verified events for the webhook route. *)
Definition evt_subscription : json :=
  JObj [("id", JStr "evt_4");
        ("type", JStr "customer.subscription.created");
        ("data", JObj [("object", JObj [("id", JStr "sub_1")])])].

Definition evt_without_type : json :=
  JObj [("id", JStr "evt_5")].

End PaySample.

(** * Properties *)

Local Open Scope list_scope.

(** ** Worlds and world-independent computations *)

Section Frame.

Context {R : Type}.
Implicit Types (w : World R) (tr : list effect).

Lemma push_push tr1 tr2 w : push tr2 (push tr1 w) = push (tr1 ++ tr2) w.
Proof. unfold push; simpl. by rewrite app_assoc. Qed.

Lemma push_environ tr w : environ (push tr w) = environ w.
Proof. reflexivity. Qed.

Lemma push_clock tr w : clock (push tr w) = clock w.
Proof. reflexivity. Qed.

Lemma push_records tr w : records (push tr w) = records w.
Proof. reflexivity. Qed.

Lemma push_trace tr w : trace (push tr w) = trace w ++ tr.
Proof. reflexivity. Qed.

Lemma drop_push tr w : drop (List.length (trace w)) (trace (push tr w)) = tr.
Proof. rewrite push_trace. apply drop_app_length. Qed.

Lemma push_nil w : push [] w = w.
Proof. destruct w. unfold push; simpl. by rewrite app_nil_r. Qed.

Lemma wi_ret {A} (a : A) : world_independent (ret a : M R A).
Proof.
  exists (inr a), []. split; [done |]. intros w. by rewrite push_nil.
Qed.

Lemma wi_lift {A} (r : result A) : world_independent (lift r : M R A).
Proof.
  exists r, []. split; [done |]. intros w. by rewrite push_nil.
Qed.

Lemma wi_log lvl msg : world_independent (emit (Log lvl msg) : M R unit).
Proof. by exists (inr tt), [Log lvl msg]. Qed.

Lemma wi_enter h : world_independent (emit (Enter h) : M R unit).
Proof. by exists (inr tt), [Enter h]. Qed.

Lemma wi_bind {A B} (m : M R A) (k : A -> M R B) :
  world_independent m ->
  (forall a, world_independent (k a)) ->
  world_independent (bind m k).
Proof.
  intros (r & tr & Hq & Hm) Hk. destruct r as [e | a].
  - exists (inl e), tr. split; [done |]. intros w. unfold bind. by rewrite Hm.
  - destruct (Hk a) as (rb & trb & Hqb & Hka).
    exists rb, (tr ++ trb). split.
    + unfold verified_payloads in *. by rewrite omap_app, Hq, Hqb.
    + intros w. unfold bind. by rewrite Hm, Hka, push_push.
Qed.

Lemma wi_if {A} (b : bool) (m1 m2 : M R A) :
  world_independent m1 -> world_independent m2 ->
  world_independent (if b then m1 else m2).
Proof. by destruct b. Qed.

End Frame.

Create HintDb wi.
#[local] Hint Resolve wi_ret wi_lift wi_log wi_enter wi_bind wi_if : wi.

(** ** The route, case by case *)

Section Route.

Context {R : Type}.
Variable sdk : Sdk.
Implicit Types (rq : Request) (w : World R) (tr : list effect).

Lemma truthy_Some (o : option string) :
  truthy o = true <-> exists s, o = Some s /\ s <> "".
Proof.
  destruct o as [s|]; simpl.
  - rewrite negb_true_iff, String.eqb_neq. split.
    + intros Hs. by exists s.
    + by intros (s' & [= <-] & Hs).
  - split; [done | by intros (s & ? & _)].
Qed.

Lemma handle_event_wi (event : json) :
  world_independent (R := R) (handle_event event).
Proof.
  unfold handle_event, on_checkout_session_completed,
    on_customer_subscription_created, logger_info.
  repeat (first [ apply wi_bind | apply wi_if | intros ? ]; auto with wi).
Qed.

(** The outcome of handling an event does not depend on the world. *)
Lemma handle_event_outcome (event : json) w w' :
  fst (handle_event event w) = fst (handle_event event w').
Proof.
  destruct (handle_event_wi event) as (r & tr & _ & H). by rewrite !H.
Qed.

Lemma handle_event_push (event : json) w :
  exists tr, snd (handle_event event w) = push tr w.
Proof.
  destruct (handle_event_wi event) as (r & tr & _ & H). exists tr.
  by rewrite H.
Qed.

(** No secret: the warning, then the acknowledgment. *)
Lemma route_unconfigured rq w :
  truthy (environ w !! "STRIPE_WEBHOOK_SECRET") = false ->
  stripe_webhook sdk rq w =
    (received,
     push [Log WARNING
             [Lit "Webhook received but no webhook secret configured"]] w).
Proof.
  intros H. unfold stripe_webhook, try_except, webhook_body, bind, os_getenv.
  by rewrite H.
Qed.

(** The SDK call raises: the error is logged and the route answers 400. *)
Lemma route_rejected rq w secret e :
  environ w !! "STRIPE_WEBHOOK_SECRET" = Some secret ->
  secret <> "" ->
  construct_event sdk (clock w) (get_data rq)
    (headers_get rq "Stripe-Signature") secret = inl e ->
  stripe_webhook sdk rq w =
    (webhook_failed,
     push [Call_construct_event (get_data rq)
             (headers_get rq "Stripe-Signature") secret;
           Log ERROR [Lit "Webhook error: "; FmtExn e]] w).
Proof.
  intros Hs Hne He.
  unfold stripe_webhook, try_except, webhook_body, bind, os_getenv,
    Webhook_construct_event, bind, emit.
  rewrite Hs. simpl. apply String.eqb_neq in Hne. rewrite Hne. simpl.
  rewrite He. unfold on_exception, logger_error, emit. simpl.
  by rewrite push_push.
Qed.

(** The SDK call returns an event: the route handles it. *)
Lemma route_verified rq w secret event :
  environ w !! "STRIPE_WEBHOOK_SECRET" = Some secret ->
  secret <> "" ->
  construct_event sdk (clock w) (get_data rq)
    (headers_get rq "Stripe-Signature") secret = inr event ->
  stripe_webhook sdk rq w =
    let w1 := push [Call_construct_event (get_data rq)
                      (headers_get rq "Stripe-Signature") secret] w in
    match handle_event event w1 with
    | (inr _, w2) => (received, w2)
    | (inl e, w2) =>
        (webhook_failed, push [Log ERROR [Lit "Webhook error: "; FmtExn e]] w2)
    end.
Proof.
  intros Hs Hne He.
  unfold stripe_webhook, try_except, webhook_body, bind, os_getenv,
    Webhook_construct_event, bind, emit.
  rewrite Hs. simpl. apply String.eqb_neq in Hne. rewrite Hne. simpl.
  rewrite He.
  destruct (handle_event event _) as [[e | []] w2]; reflexivity.
Qed.

(** In every case the route only appends to the trace. *)
Lemma route_push rq w : exists tr, snd (stripe_webhook sdk rq w) = push tr w.
Proof.
  destruct (truthy (environ w !! "STRIPE_WEBHOOK_SECRET")) eqn:Ht.
  - apply truthy_Some in Ht as (secret & Hs & Hne).
    destruct (construct_event sdk (clock w) (get_data rq)
                (headers_get rq "Stripe-Signature") secret) as [e | event] eqn:He.
    + rewrite (route_rejected rq w secret e Hs Hne He). eauto.
    + rewrite (route_verified rq w secret event Hs Hne He). cbv zeta.
      destruct (handle_event_wi event) as (r & tr & _ & H). rewrite H.
      destruct r as [e | u]; simpl; rewrite !push_push; eauto.
  - rewrite (route_unconfigured rq w Ht). eauto.
Qed.

Lemma effects_of_push rq w r tr :
  stripe_webhook sdk rq w = (r, push tr w) -> effects_of sdk rq w = tr.
Proof. intros H. unfold effects_of. rewrite H. apply drop_push. Qed.

End Route.

(** ** The claims on the unverified and the rejected paths *)

Section Rejection.

Context {R : Type}.
Variable sdk : Sdk.
Implicit Types (rq : Request) (w : World R).

(** C1, as amended.  While [STRIPE_WEBHOOK_SECRET] is unset or empty the
    route does not fail closed: it logs a warning and answers with the
    acknowledgment (200, [{'received': true}]).  Nothing is verified: the
    SDK is not called, no event exists and no handling branch is
    entered. *)
Theorem unconfigured_secret_acknowledges rq w :
  truthy (environ w !! "STRIPE_WEBHOOK_SECRET") = false ->
  fst (stripe_webhook sdk rq w) = received /\
  status (fst (stripe_webhook sdk rq w)) = 200 /\
  effects_of sdk rq w =
    [Log WARNING [Lit "Webhook received but no webhook secret configured"]] /\
  verified_payloads (effects_of sdk rq w) = [] /\
  entered (effects_of sdk rq w) = [].
Proof.
  intros H. pose proof (route_unconfigured sdk rq w H) as Hrun.
  rewrite (effects_of_push sdk rq w _ _ Hrun), Hrun. by repeat split.
Qed.

(** C2.  When the signature verification of a request fails, i.e. the
    SDK call raises (whatever the reason), the route answers with the
    rejection, no event comes into being and no handling branch is
    entered: the only effects are the SDK call and the error log. *)
Theorem failed_verification_reaches_no_handler rq w secret e :
  environ w !! "STRIPE_WEBHOOK_SECRET" = Some secret ->
  secret <> "" ->
  construct_event sdk (clock w) (get_data rq)
    (headers_get rq "Stripe-Signature") secret = inl e ->
  fst (stripe_webhook sdk rq w) = webhook_failed /\
  effects_of sdk rq w =
    [Call_construct_event (get_data rq)
       (headers_get rq "Stripe-Signature") secret;
     Log ERROR [Lit "Webhook error: "; FmtExn e]] /\
  entered (effects_of sdk rq w) = [] /\
  Forall (fun ef => uses_event ef = false) (effects_of sdk rq w).
Proof.
  intros Hs Hne He. pose proof (route_rejected sdk rq w secret e Hs Hne He) as Hrun.
  rewrite (effects_of_push sdk rq w _ _ Hrun), Hrun.
  repeat split. by repeat constructor.
Qed.

(** C5.  Two requests whose verification fails, for whatever two
    reasons, get the same answer: status 400 and the one generic body
    [{'error': 'Webhook failed'}]; the reason only goes to the log. *)
Theorem rejection_is_uniform rq1 rq2 w1 w2 secret1 secret2 e1 e2 :
  environ w1 !! "STRIPE_WEBHOOK_SECRET" = Some secret1 ->
  secret1 <> "" ->
  construct_event sdk (clock w1) (get_data rq1)
    (headers_get rq1 "Stripe-Signature") secret1 = inl e1 ->
  environ w2 !! "STRIPE_WEBHOOK_SECRET" = Some secret2 ->
  secret2 <> "" ->
  construct_event sdk (clock w2) (get_data rq2)
    (headers_get rq2 "Stripe-Signature") secret2 = inl e2 ->
  fst (stripe_webhook sdk rq1 w1) = fst (stripe_webhook sdk rq2 w2) /\
  status (fst (stripe_webhook sdk rq1 w1)) = 400 /\
  body (fst (stripe_webhook sdk rq1 w1)) =
    JObj [("error", JStr "Webhook failed")].
Proof.
  intros Hs1 Hne1 He1 Hs2 Hne2 He2.
  rewrite (route_rejected sdk rq1 w1 secret1 e1 Hs1 Hne1 He1).
  rewrite (route_rejected sdk rq2 w2 secret2 e2 Hs2 Hne2 He2).
  by repeat split.
Qed.

End Rejection.

(** C1, as the specification states it, fails: with no webhook secret in
    the environment, and even with an SDK that would reject every
    notification, the request is acknowledged with status 200. *)
Lemma missing_secret_is_not_rejected :
  Sample.env_no_webhook_secret !! "STRIPE_WEBHOOK_SECRET" = None /\
  fst (stripe_webhook Sample.sdk_rejecting Sample.request_unsigned
         (Sample.world Sample.env_no_webhook_secret 0)) = received /\
  status (fst (stripe_webhook Sample.sdk_rejecting Sample.request_unsigned
                 (Sample.world Sample.env_no_webhook_secret 0))) = 200.
Proof. vm_compute. by repeat split. Qed.

Lemma unconfigured_secret_acknowledges_witness :
  fst (stripe_webhook Sample.sdk_rejecting Sample.request_unsigned
         (Sample.world Sample.env_no_webhook_secret 0)) = received /\
  status (fst (stripe_webhook Sample.sdk_rejecting Sample.request_unsigned
                 (Sample.world Sample.env_no_webhook_secret 0))) = 200 /\
  effects_of Sample.sdk_rejecting Sample.request_unsigned
    (Sample.world Sample.env_no_webhook_secret 0) =
    [Log WARNING [Lit "Webhook received but no webhook secret configured"]] /\
  verified_payloads
    (effects_of Sample.sdk_rejecting Sample.request_unsigned
       (Sample.world Sample.env_no_webhook_secret 0)) = [] /\
  entered
    (effects_of Sample.sdk_rejecting Sample.request_unsigned
       (Sample.world Sample.env_no_webhook_secret 0)) = [].
Proof.
  apply (unconfigured_secret_acknowledges Sample.sdk_rejecting
           Sample.request_unsigned
           (Sample.world Sample.env_no_webhook_secret 0)).
  vm_compute. reflexivity.
Defined.

Lemma failed_verification_reaches_no_handler_witness :
  fst (stripe_webhook Sample.sdk_rejecting Sample.request_unsigned
         (Sample.world Sample.env_both 0)) = webhook_failed /\
  entered (effects_of Sample.sdk_rejecting Sample.request_unsigned
             (Sample.world Sample.env_both 0)) = [].
Proof.
  destruct (failed_verification_reaches_no_handler Sample.sdk_rejecting
              Sample.request_unsigned (Sample.world Sample.env_both 0)
              "whsec_test"
              (SignatureVerificationError
                 "Unable to extract timestamp and signatures from header"))
    as (Hr & _ & Hh & _).
  - vm_compute. reflexivity.
  - discriminate.
  - reflexivity.
  - split; [exact Hr | exact Hh].
Defined.

(** A request without a signature header and one with a forged
    signature are rejected by the SDK for different reasons, and are
    answered alike. *)
Lemma rejection_is_uniform_witness :
  fst (stripe_webhook Sample.sdk_rejecting Sample.request_unsigned
         (Sample.world Sample.env_both 1100)) =
  fst (stripe_webhook Sample.sdk_rejecting Sample.request_bad_signature
         (Sample.world Sample.env_both 1100)).
Proof.
  apply (rejection_is_uniform Sample.sdk_rejecting
           Sample.request_unsigned Sample.request_bad_signature
           (Sample.world Sample.env_both 1100)
           (Sample.world Sample.env_both 1100)
           "whsec_test" "whsec_test"
           (SignatureVerificationError
              "Unable to extract timestamp and signatures from header")
           (SignatureVerificationError
              "No signatures found matching the expected signature for payload")).
  - vm_compute. reflexivity.
  - discriminate.
  - vm_compute. reflexivity.
  - vm_compute. reflexivity.
  - discriminate.
  - vm_compute. reflexivity.
Defined.

(** ** The claims on the verified path *)

Section Dispatch.

Context {R : Type}.
Variable sdk : Sdk.
Implicit Types (rq : Request) (w : World R).

(** When a verified event reaches a handling branch that raises, the
    route answers 400 with the generic body, exactly as for a failed
    verification, and the exception only goes to the error log. *)
Theorem handler_failure_answers_400 rq w secret event e :
  environ w !! "STRIPE_WEBHOOK_SECRET" = Some secret ->
  secret <> "" ->
  construct_event sdk (clock w) (get_data rq)
    (headers_get rq "Stripe-Signature") secret = inr event ->
  fst (handle_event event w) = inl e ->
  fst (stripe_webhook sdk rq w) = webhook_failed /\
  status (fst (stripe_webhook sdk rq w)) = 400 /\
  last (effects_of sdk rq w) =
    Some (Log ERROR [Lit "Webhook error: "; FmtExn e]).
Proof.
  intros Hs Hne He Hfail.
  pose proof (route_verified sdk rq w secret event Hs Hne He) as Hrun.
  cbv zeta in Hrun.
  destruct (handle_event_wi (R := R) event) as (r & tr & _ & Hwi).
  rewrite Hwi in Hfail, Hrun. simpl in Hfail. subst r.
  rewrite !push_push in Hrun.
  rewrite (effects_of_push sdk rq w _ _ Hrun), Hrun.
  repeat split. rewrite app_assoc. apply last_snoc.
Qed.

(** C4.  A verified event whose kind is neither
    ['checkout.session.completed'] nor ['customer.subscription.created']
    is acknowledged with status 200: the route logs it as unhandled and
    enters no handling branch. *)
Theorem unknown_kind_is_acknowledged rq w secret event (kind : string) :
  environ w !! "STRIPE_WEBHOOK_SECRET" = Some secret ->
  secret <> "" ->
  construct_event sdk (clock w) (get_data rq)
    (headers_get rq "Stripe-Signature") secret = inr event ->
  getitem event "type" = inr (JStr kind) ->
  kind <> "checkout.session.completed" ->
  kind <> "customer.subscription.created" ->
  fst (stripe_webhook sdk rq w) = received /\
  status (fst (stripe_webhook sdk rq w)) = 200 /\
  entered (effects_of sdk rq w) = [] /\
  effects_of sdk rq w =
    [Call_construct_event (get_data rq)
       (headers_get rq "Stripe-Signature") secret;
     Log INFO [Lit "Unhandled event type: "; Fmt (JStr kind)]].
Proof.
  intros Hs Hne He Hty Hk1 Hk2.
  pose proof (route_verified sdk rq w secret event Hs Hne He) as Hrun.
  cbv zeta in Hrun.
  apply String.eqb_neq in Hk1, Hk2.
  unfold handle_event, bind, lift, logger_info, emit in Hrun.
  rewrite Hty in Hrun. simpl in Hrun. rewrite Hk1, Hk2, push_push in Hrun.
  rewrite (effects_of_push sdk rq w _ _ Hrun), Hrun. by repeat split.
Qed.


End Dispatch.

Section Replay.

Context {R : Type}.
Variable sdk : Sdk.
Implicit Types (rq : Request) (w : World R).




End Replay.

(** ** The verifier of the specification behind the route *)

Section Verifier.

Import SignatureVerifier.

Context {R : Type}.
Variable S : Scheme.
Implicit Types (rq : Request) (w : World R).

Lemma mac_matches_iff (secret : string) (rawBody : list byte)
    (signatures : list string) :
  existsb (String.eqb (mac S secret rawBody)) signatures = true <->
  In (mac S secret rawBody) signatures.
Proof.
  rewrite existsb_exists. split.
  - intros (s & Hin & Heq). apply String.eqb_eq in Heq. by subst.
  - intros Hin. exists (mac S secret rawBody). split; [done |].
    apply String.eqb_refl.
Qed.

Lemma stale_outside_tolerance (now ts : Z) :
  ts + tolerance S < now -> within_tolerance S now ts = false.
Proof. intros H. unfold within_tolerance. apply Z.leb_gt. lia. Qed.

(** A signature computed over the body with the secret verifies, as
    long as the header has no timestamp or one inside the tolerance. *)
Lemma fresh_signature_verifies (now : Z) (rawBody : list byte)
    (secret header : string) (timestamp : option Z) signatures :
  secret <> "" ->
  parse_header S header = Some (timestamp, signatures) ->
  In (mac S secret rawBody) signatures ->
  (forall ts, timestamp = Some ts -> within_tolerance S now ts = true) ->
  verify S now rawBody (Some header) (Some secret) =
    inr (parse_event S rawBody).
Proof.
  intros Hne Hp Hmac Hfresh. unfold verify.
  apply String.eqb_neq in Hne. rewrite Hne, Hp.
  apply mac_matches_iff in Hmac. rewrite Hmac.
  destruct timestamp as [ts |]; [| done]. by rewrite (Hfresh ts eq_refl).
Qed.

(** A body other than the signed one is rejected exactly when its MAC
    is not among the signatures of the header: that a changed body has a
    changed MAC is a property of the MAC, not of the verifier. *)
Lemma other_body_verdict (now : Z) (rawBody' : list byte)
    (secret header : string) (timestamp : option Z) signatures :
  secret <> "" ->
  parse_header S header = Some (timestamp, signatures) ->
  ~ In (mac S secret rawBody') signatures ->
  verify S now rawBody' (Some header) (Some secret) = inl SignatureMismatch.
Proof.
  intros Hne Hp Hmac. unfold verify.
  apply String.eqb_neq in Hne. rewrite Hne, Hp.
  destruct (existsb _ signatures) eqn:Hex; [| done].
  apply mac_matches_iff in Hex. contradiction.
Qed.

(** C7.  A request whose signature header carries a timestamp older
    than the tolerance is rejected as [Expired] by the verifier even
    though the MAC over the body matches under the secret; the route
    then answers with the rejection and enters no handling branch. *)
Theorem stale_timestamp_is_expired rq w secret header ts signatures :
  environ w !! "STRIPE_WEBHOOK_SECRET" = Some secret ->
  secret <> "" ->
  headers_get rq "Stripe-Signature" = Some header ->
  parse_header S header = Some (Some ts, signatures) ->
  In (mac S secret (get_data rq)) signatures ->
  ts + tolerance S < clock w ->
  verify S (clock w) (get_data rq) (Some header) (Some secret) = inl Expired /\
  fst (stripe_webhook (as_sdk S) rq w) = webhook_failed /\
  status (fst (stripe_webhook (as_sdk S) rq w)) = 400 /\
  entered (effects_of (as_sdk S) rq w) = [].
Proof.
  intros Hs Hne Hh Hp Hmac Hold.
  assert (Hv : verify S (clock w) (get_data rq) (Some header) (Some secret)
               = inl Expired).
  { unfold verify. apply String.eqb_neq in Hne. rewrite Hne, Hp.
    apply mac_matches_iff in Hmac. rewrite Hmac.
    by rewrite (stale_outside_tolerance _ _ Hold). }
  split; [exact Hv |].
  assert (He : construct_event (as_sdk S) (clock w) (get_data rq)
                 (headers_get rq "Stripe-Signature") secret
               = inl (SignatureVerificationError (describe Expired))).
  { unfold as_sdk. cbn [construct_event]. by rewrite Hh, Hv. }
  pose proof (route_rejected (as_sdk S) rq w secret _ Hs Hne He) as Hrun.
  rewrite (effects_of_push (as_sdk S) rq w _ _ Hrun), Hrun. by repeat split.
Qed.

End Verifier.

(** ** Start-up *)

Section Startup.

Context {R : Type}.
Variable sdk : Sdk.
Implicit Types (w : World R) (requests : list Request).

Lemma module_init_refuses w :
  truthy (environ w !! "STRIPE_SECRET_KEY") = false ->
  module_init w =
    (inl (ValueError "Stripe configuration missing"),
     push [Log ERROR
             [Lit "STRIPE_SECRET_KEY environment variable not set!"]] w).
Proof.
  intros H. unfold module_init, bind, os_getenv. by rewrite H.
Qed.

Lemma module_init_loads w :
  truthy (environ w !! "STRIPE_SECRET_KEY") = true ->
  module_init w = (inr (mkApp (default "" (environ w !! "STRIPE_SECRET_KEY"))), w).
Proof.
  intros H. unfold module_init, bind, os_getenv. by rewrite H.
Qed.

(** C10.  With [STRIPE_SECRET_KEY] unset or empty, loading the module
    raises [ValueError] and no request is ever served.  The check looks
    at the API key only: with the key set the service serves its
    requests whatever [STRIPE_WEBHOOK_SECRET] is, the outcome of loading
    the module does not change when the webhook secret is set, changed
    or removed, and the route reads the webhook secret from the
    environment of the moment of each request. *)
Theorem startup_checks_the_api_key_only requests w :
  (truthy (environ w !! "STRIPE_SECRET_KEY") = false ->
   run_service sdk requests w =
     (inl (ValueError "Stripe configuration missing"),
      push [Log ERROR
              [Lit "STRIPE_SECRET_KEY environment variable not set!"]] w)) /\
  (truthy (environ w !! "STRIPE_SECRET_KEY") = true ->
   run_service sdk requests w =
     (inr (fst (serve sdk requests w)), snd (serve sdk requests w))) /\
  (forall v : option string,
     fst (module_init (with_env "STRIPE_WEBHOOK_SECRET" v w)) =
     fst (module_init w)) /\
  (forall (v : option string) rq,
     truthy v = false ->
     fst (stripe_webhook sdk rq (with_env "STRIPE_WEBHOOK_SECRET" v w)) =
     received).
Proof.
  repeat split.
  - intros H. unfold run_service, bind. by rewrite (module_init_refuses w H).
  - intros H. unfold run_service, bind. rewrite (module_init_loads w H).
    by destruct (serve sdk requests w).
  - intros v. unfold module_init, bind, os_getenv, with_env. simpl.
    assert (Hk : forall m : gmap string string,
               match v with
               | Some s => <["STRIPE_WEBHOOK_SECRET" := s]> m
               | None => delete "STRIPE_WEBHOOK_SECRET" m
               end !! "STRIPE_SECRET_KEY" = m !! "STRIPE_SECRET_KEY").
    { intros m. destruct v.
      - by apply lookup_insert_ne.
      - by apply lookup_delete_ne. }
    rewrite Hk. by destruct (truthy (environ w !! "STRIPE_SECRET_KEY")).
  - intros v rq Hv. rewrite route_unconfigured; [done |].
    unfold with_env; simpl. destruct v as [s |].
    + by rewrite lookup_insert_eq.
    + by rewrite lookup_delete_eq.
Qed.

End Startup.

(** ** The claims on concrete runs *)

Lemma handler_failure_answers_400_witness :
  fst (stripe_webhook
         (Sample.sdk_returning Sample.evt_checkout_no_session_id)
         Sample.request_unsigned (Sample.world Sample.env_both 0)) =
    webhook_failed /\
  status (fst (stripe_webhook
                 (Sample.sdk_returning Sample.evt_checkout_no_session_id)
                 Sample.request_unsigned
                 (Sample.world Sample.env_both 0))) = 400 /\
  last (effects_of (Sample.sdk_returning Sample.evt_checkout_no_session_id)
          Sample.request_unsigned (Sample.world Sample.env_both 0)) =
    Some (Log ERROR [Lit "Webhook error: "; FmtExn (KeyError "id")]).
Proof.
  apply (handler_failure_answers_400
           (Sample.sdk_returning Sample.evt_checkout_no_session_id)
           Sample.request_unsigned (Sample.world Sample.env_both 0)
           "whsec_test" Sample.evt_checkout_no_session_id (KeyError "id")).
  - vm_compute. reflexivity.
  - discriminate.
  - reflexivity.
  - vm_compute. reflexivity.
Defined.

Lemma unknown_kind_is_acknowledged_witness :
  fst (stripe_webhook (Sample.sdk_returning Sample.evt_invoice_paid)
         Sample.request_unsigned (Sample.world Sample.env_both 0)) =
    received /\
  status (fst (stripe_webhook (Sample.sdk_returning Sample.evt_invoice_paid)
                 Sample.request_unsigned
                 (Sample.world Sample.env_both 0))) = 200 /\
  entered (effects_of (Sample.sdk_returning Sample.evt_invoice_paid)
             Sample.request_unsigned (Sample.world Sample.env_both 0)) = [] /\
  effects_of (Sample.sdk_returning Sample.evt_invoice_paid)
    Sample.request_unsigned (Sample.world Sample.env_both 0) =
    [Call_construct_event Sample.body_1 None "whsec_test";
     Log INFO [Lit "Unhandled event type: "; Fmt (JStr "invoice.paid")]].
Proof.
  apply (unknown_kind_is_acknowledged
           (Sample.sdk_returning Sample.evt_invoice_paid)
           Sample.request_unsigned (Sample.world Sample.env_both 0)
           "whsec_test" Sample.evt_invoice_paid "invoice.paid").
  - vm_compute. reflexivity.
  - discriminate.
  - reflexivity.
  - reflexivity.
  - discriminate.
  - discriminate.
Defined.


(** A body signed at time 1000 under the toy scheme, received at time
    1301 with a tolerance of 300. *)
Lemma stale_timestamp_is_expired_witness :
  SignatureVerifier.verify Sample.toy_scheme 1301 Sample.body_1
    (Some "t=1000,v1=whsec_test|{}") (Some "whsec_test") =
    inl SignatureVerifier.Expired /\
  fst (stripe_webhook (SignatureVerifier.as_sdk Sample.toy_scheme)
         Sample.request_signed_at_1000
         (Sample.world Sample.env_both 1301)) = webhook_failed /\
  status (fst (stripe_webhook (SignatureVerifier.as_sdk Sample.toy_scheme)
                 Sample.request_signed_at_1000
                 (Sample.world Sample.env_both 1301))) = 400 /\
  entered (effects_of (SignatureVerifier.as_sdk Sample.toy_scheme)
             Sample.request_signed_at_1000
             (Sample.world Sample.env_both 1301)) = [].
Proof.
  apply (stale_timestamp_is_expired Sample.toy_scheme
           Sample.request_signed_at_1000 (Sample.world Sample.env_both 1301)
           "whsec_test" "t=1000,v1=whsec_test|{}" 1000 ["whsec_test|{}"]).
  - vm_compute. reflexivity.
  - discriminate.
  - reflexivity.
  - vm_compute. reflexivity.
  - left. vm_compute. reflexivity.
  - simpl. lia.
Defined.



Lemma startup_checks_the_api_key_only_witness :
  fst (run_service Sample.sdk_rejecting [Sample.request_unsigned]
         (Sample.world Sample.env_empty_api_key 0)) =
    inl (ValueError "Stripe configuration missing") /\
  fst (run_service Sample.sdk_rejecting [Sample.request_unsigned]
         (Sample.world Sample.env_no_webhook_secret 0)) = inr [received].
Proof.
  split.
  - rewrite (proj1 (startup_checks_the_api_key_only Sample.sdk_rejecting
                      [Sample.request_unsigned]
                      (Sample.world Sample.env_empty_api_key 0))).
    + reflexivity.
    + vm_compute. reflexivity.
  - rewrite (proj1 (proj2 (startup_checks_the_api_key_only
                             Sample.sdk_rejecting [Sample.request_unsigned]
                             (Sample.world Sample.env_no_webhook_secret 0)))).
    + vm_compute. reflexivity.
    + vm_compute. reflexivity.
Defined.

(** ** Further properties of the [/webhook] route *)

Section RouteShape.

Context {R : Type}.
Variable sdk : Sdk.
Implicit Types (rq : Request) (w : World R).

(** The effects of handling an event: nothing, a handling branch
    entered (and perhaps its log line), or the log of an unhandled
    kind. *)
Lemma handle_event_shape (event : json) w :
  exists r tr,
    handle_event event w = (r, push tr w) /\
    (tr = [] \/ (exists h, tr = [Enter h]) \/
     (exists h msg, tr = [Enter h; Log INFO msg] /\ r = inr tt) \/
     (exists msg, tr = [Log INFO msg] /\ r = inr tt)).
Proof.
  unfold handle_event, on_checkout_session_completed,
    on_customer_subscription_created, logger_info, bind, lift, emit.
  repeat
    (match goal with
     | |- context [match getitem ?a ?b with _ => _ end] =>
         destruct (getitem a b) eqn:?
     | |- context [if eq_str ?a ?b then _ else _] =>
         destruct (eq_str a b) eqn:?
     end; cbn [fst snd]);
    rewrite ?push_push;
    first [ by (eexists _, _; split; [reflexivity | eauto 10])
          | by (eexists _, []; split; [by rewrite push_nil | eauto]) ].
Qed.

(** The route has two answers: the acknowledgment and the generic
    rejection.  It never answers 500 and never puts the text of an
    exception in the body. *)
Theorem webhook_has_two_answers rq w :
  fst (stripe_webhook sdk rq w) = received \/
  fst (stripe_webhook sdk rq w) = webhook_failed.
Proof.
  destruct (truthy (environ w !! "STRIPE_WEBHOOK_SECRET")) eqn:Ht.
  - apply truthy_Some in Ht as (secret & Hs & Hne).
    destruct (construct_event sdk (clock w) (get_data rq)
                (headers_get rq "Stripe-Signature") secret)
      as [e | event] eqn:He.
    + right. by rewrite (route_rejected sdk rq w secret e Hs Hne He).
    + rewrite (route_verified sdk rq w secret event Hs Hne He). cbv zeta.
      destruct (handle_event event _) as [[e | u] w2]; auto.
  - left. by rewrite (route_unconfigured sdk rq w Ht).
Qed.

(** A run leaves the environment, the clock and the system of record as
    they were, and only appends its effects to the trace. *)
Theorem webhook_only_appends_to_the_trace rq w :
  snd (stripe_webhook sdk rq w) = push (effects_of sdk rq w) w.
Proof.
  destruct (route_push sdk rq w) as (tr & H).
  unfold effects_of. by rewrite H, drop_push.
Qed.

(** A request enters at most one handling branch. *)
Theorem webhook_enters_at_most_one_branch rq w :
  (List.length (entered (effects_of sdk rq w)) <= 1)%nat.
Proof.
  destruct (truthy (environ w !! "STRIPE_WEBHOOK_SECRET")) eqn:Ht.
  - apply truthy_Some in Ht as (secret & Hs & Hne).
    destruct (construct_event sdk (clock w) (get_data rq)
                (headers_get rq "Stripe-Signature") secret)
      as [e | event] eqn:He.
    + pose proof (route_rejected sdk rq w secret e Hs Hne He) as Hrun.
      rewrite (effects_of_push sdk rq w _ _ Hrun). simpl. lia.
    + pose proof (route_verified sdk rq w secret event Hs Hne He) as Hrun.
      cbv zeta in Hrun.
      destruct (handle_event_shape event
                  (push [Call_construct_event (get_data rq)
                           (headers_get rq "Stripe-Signature") secret] w))
        as (r & tr & Hh & Hshape).
      rewrite Hh in Hrun.
      assert (Hlen : (List.length (entered tr) <= 1)%nat).
      { destruct Hshape as [-> | [(h & ->) | [(h & m & -> & _) | (m & -> & _)]]];
          simpl; lia. }
      destruct r as [e | u]; rewrite !push_push in Hrun;
        rewrite (effects_of_push sdk rq w _ _ Hrun); unfold entered in *;
        simpl; rewrite ?omap_app; simpl; rewrite ?app_nil_r; exact Hlen.
  - pose proof (route_unconfigured sdk rq w Ht) as Hrun.
    rewrite (effects_of_push sdk rq w _ _ Hrun). simpl. lia.
Qed.

(** A verified ['checkout.session.completed'] event whose session object
    has an [id] is acknowledged: the checkout branch is the only one
    entered and it logs the session id. *)
Theorem checkout_completed_is_handled rq w secret event data session sid :
  environ w !! "STRIPE_WEBHOOK_SECRET" = Some secret ->
  secret <> "" ->
  construct_event sdk (clock w) (get_data rq)
    (headers_get rq "Stripe-Signature") secret = inr event ->
  getitem event "type" = inr (JStr "checkout.session.completed") ->
  getitem event "data" = inr data ->
  getitem data "object" = inr session ->
  getitem session "id" = inr sid ->
  fst (stripe_webhook sdk rq w) = received /\
  effects_of sdk rq w =
    [Call_construct_event (get_data rq)
       (headers_get rq "Stripe-Signature") secret;
     Enter checkout_session_completed;
     Log INFO [Lit "Payment completed for session "; Fmt sid]].
Proof.
  intros Hs Hne He Hty Hd Ho Hi.
  pose proof (route_verified sdk rq w secret event Hs Hne He) as Hrun.
  cbv zeta in Hrun.
  unfold handle_event, on_checkout_session_completed, bind, lift,
    logger_info, emit in Hrun.
  rewrite Hty in Hrun. simpl in Hrun. rewrite Hd, Ho, Hi in Hrun.
  rewrite !push_push in Hrun.
  by rewrite (effects_of_push sdk rq w _ _ Hrun), Hrun.
Qed.

(** A verified ['customer.subscription.created'] event whose
    subscription object has an [id] is acknowledged: the subscription
    branch is the only one entered and it logs the subscription id. *)
Theorem subscription_created_is_handled rq w secret event data
    subscription sid :
  environ w !! "STRIPE_WEBHOOK_SECRET" = Some secret ->
  secret <> "" ->
  construct_event sdk (clock w) (get_data rq)
    (headers_get rq "Stripe-Signature") secret = inr event ->
  getitem event "type" = inr (JStr "customer.subscription.created") ->
  getitem event "data" = inr data ->
  getitem data "object" = inr subscription ->
  getitem subscription "id" = inr sid ->
  fst (stripe_webhook sdk rq w) = received /\
  effects_of sdk rq w =
    [Call_construct_event (get_data rq)
       (headers_get rq "Stripe-Signature") secret;
     Enter customer_subscription_created;
     Log INFO [Lit "Subscription created: "; Fmt sid]].
Proof.
  intros Hs Hne He Hty Hd Ho Hi.
  pose proof (route_verified sdk rq w secret event Hs Hne He) as Hrun.
  cbv zeta in Hrun.
  unfold handle_event, on_customer_subscription_created, bind, lift,
    logger_info, emit in Hrun.
  rewrite Hty in Hrun. simpl in Hrun. rewrite Hd, Ho, Hi in Hrun.
  rewrite !push_push in Hrun.
  by rewrite (effects_of_push sdk rq w _ _ Hrun), Hrun.
Qed.

(** A verified event from which ['type'] cannot be read (the key is
    missing, or the event is no object) is answered with the rejection,
    although its signature verified; no handling branch is entered. *)
Theorem event_without_type_is_rejected rq w secret event e :
  environ w !! "STRIPE_WEBHOOK_SECRET" = Some secret ->
  secret <> "" ->
  construct_event sdk (clock w) (get_data rq)
    (headers_get rq "Stripe-Signature") secret = inr event ->
  getitem event "type" = inl e ->
  fst (stripe_webhook sdk rq w) = webhook_failed /\
  effects_of sdk rq w =
    [Call_construct_event (get_data rq)
       (headers_get rq "Stripe-Signature") secret;
     Log ERROR [Lit "Webhook error: "; FmtExn e]].
Proof.
  intros Hs Hne He Hty.
  pose proof (route_verified sdk rq w secret event Hs Hne He) as Hrun.
  cbv zeta in Hrun. unfold handle_event, bind, lift in Hrun.
  rewrite Hty in Hrun. rewrite !push_push in Hrun.
  by rewrite (effects_of_push sdk rq w _ _ Hrun), Hrun.
Qed.

End RouteShape.

(** ** The [/create-checkout] route *)

Section CreateCheckout.

Context {R : Type}.
Variable api : Checkout R.
Implicit Types (rq : JsonRequest) (w : World R) (data : json).

Lemma PRICE_IDS_Some (plan price : string) :
  PRICE_IDS !! plan = Some price <->
  (plan = "basic" \/ plan = "premium") /\
  price = "price_1RSQMiHYveGHjElbaTQctoS0".
Proof.
  unfold PRICE_IDS. rewrite !lookup_insert_Some, lookup_empty.
  intuition (subst; auto; discriminate).
Qed.

Lemma PRICE_IDS_None (plan : string) :
  PRICE_IDS !! plan = None <-> plan <> "basic" /\ plan <> "premium".
Proof.
  unfold PRICE_IDS. rewrite !lookup_insert_None, lookup_empty.
  intuition (subst; auto).
Qed.

Lemma dict_get_object data key dflt v :
  dict_get data key dflt = inr v ->
  exists members, data = JObj members /\ v = default dflt (assoc key members).
Proof. destruct data; simpl; intros; simplify_eq. eauto. Qed.

(** The world after one call of the SDK and the effects [tr]. *)
Lemma push_after_call (tr : list effect) (st : R) w :
  push tr (mkWorld (environ w) (clock w) (trace w) st) =
  mkWorld (environ w) (clock w) (trace w ++ tr) st.
Proof. reflexivity. Qed.

(** An unknown plan is answered 400 before anything else happens:
    nothing is logged, the processor is not called, and the other
    fields of the body are not looked at. *)
Theorem unknown_plan_is_refused rq w data given plan :
  get_json rq = inr data ->
  dict_get data "plan_type" (JStr "premium") = inr given ->
  str_lower given = inr plan ->
  plan <> "basic" ->
  plan <> "premium" ->
  create_checkout api rq w = (invalid_plan_type, w) /\
  status invalid_plan_type = 400.
Proof.
  intros Hj Hg Hl Hb Hp. split; [| done].
  apply dict_get_object in Hg as (members & -> & ->).
  unfold create_checkout, create_checkout_body, pbind, py, pret.
  rewrite Hj. cbn [dict_get]. rewrite Hl.
  by rewrite (proj2 (PRICE_IDS_None plan) (conj Hb Hp)).
Qed.

(** Up to the call of the SDK: a body with a known plan and a string
    for [success_url] reaches the processor with these parameters. *)
Lemma create_checkout_body_calls rq w data given plan s cancel email
    version user :
  get_json rq = inr data ->
  dict_get data "plan_type" (JStr "premium") = inr given ->
  str_lower given = inr plan ->
  plan = "basic" \/ plan = "premium" ->
  dict_get data "success_url" (JStr "https://yourdomain.com/success") =
    inr (JStr s) ->
  dict_get data "cancel_url" (JStr "https://yourdomain.com/cancel") =
    inr cancel ->
  dict_get data "customer_email" JNull = inr email ->
  dict_get data "app_version" (JStr "unknown") = inr version ->
  dict_get data "user_id" (JStr "anonymous") = inr user ->
  create_checkout_body api rq w =
    pbind
      (call (sessions_create api
               (let params :=
                  session_params plan "price_1RSQMiHYveGHjElbaTQctoS0"
                    (JStr (s ++ "?session_id={CHECKOUT_SESSION_ID}"))
                    cancel version user in
                if json_truthy email
                then dict_add params "customer_email" email
                else params)))
      (fun session =>
         pbind (py (getattr session "id")) (fun logged_id =>
         pbind (plog INFO [Lit "Created checkout session "; Fmt logged_id;
                           Lit " for plan: "; Fmt (JStr plan)]) (fun _ =>
         pbind (py (getattr session "url")) (fun url =>
         pbind (py (getattr session "id")) (fun id =>
         pret (jsonify (JObj [("success", JBool true);
                              ("checkout_url", url);
                              ("session_id", id);
                              ("plan_type", JStr plan)])))))))
      w.
Proof.
  intros Hj Hg Hl Hplan Hs Hc He Hv Hu.
  assert (Hprice : PRICE_IDS !! plan = Some "price_1RSQMiHYveGHjElbaTQctoS0")
    by (by apply PRICE_IDS_Some).
  unfold create_checkout_body.
  unfold pbind at 1, py at 1. rewrite Hj.
  unfold pbind at 1, py at 1. rewrite Hg.
  unfold pbind at 1, py at 1. rewrite Hl.
  unfold pbind at 1, py at 1. rewrite Hs.
  unfold pbind at 1, py at 1. rewrite Hc.
  unfold pbind at 1, py at 1. rewrite He.
  rewrite Hprice.
  unfold pbind at 1, py at 1. cbn [add_str].
  unfold pbind at 1, py at 1. rewrite Hv.
  unfold pbind at 1, py at 1. rewrite Hu.
  reflexivity.
Qed.

(** When the processor raises, the state it left is kept, the error is
    logged, and the answer is the generic 400 for an error of the
    processor and the generic 500 for anything else. *)
Theorem checkout_failure_of_the_processor rq w data given plan s cancel
    email version user (r : raised) (st : R) :
  get_json rq = inr data ->
  dict_get data "plan_type" (JStr "premium") = inr given ->
  str_lower given = inr plan ->
  plan = "basic" \/ plan = "premium" ->
  dict_get data "success_url" (JStr "https://yourdomain.com/success") =
    inr (JStr s) ->
  dict_get data "cancel_url" (JStr "https://yourdomain.com/cancel") =
    inr cancel ->
  dict_get data "customer_email" JNull = inr email ->
  dict_get data "app_version" (JStr "unknown") = inr version ->
  dict_get data "user_id" (JStr "anonymous") = inr user ->
  sessions_create api
    (let params :=
       session_params plan "price_1RSQMiHYveGHjElbaTQctoS0"
         (JStr (s ++ "?session_id={CHECKOUT_SESSION_ID}"))
         cancel version user in
     if json_truthy email
     then dict_add params "customer_email" email
     else params)
    (records w) = (inl r, st) ->
  create_checkout api rq w =
    (if is_StripeError r then payment_system_error
     else internal_server_error,
     mkWorld (environ w) (clock w)
       (trace w ++
        [Log ERROR [Lit (if is_StripeError r then "Stripe error: "
                         else "Unexpected error: ");
                    fmt_raised r]])
       st).
Proof.
  intros Hj Hg Hl Hplan Hs Hc He Hv Hu Hcall.
  unfold create_checkout.
  rewrite (create_checkout_body_calls rq w data given plan s cancel email
             version user Hj Hg Hl Hplan Hs Hc He Hv Hu).
  cbv zeta in Hcall. unfold pbind, call. cbv zeta. rewrite Hcall.
  by destruct (is_StripeError r).
Qed.

(** A body that is not a JSON object (a list, a number, [null], ...) is
    answered 500; the processor is not called. *)
Theorem checkout_body_must_be_an_object rq w data :
  get_json rq = inr data ->
  (forall members, data <> JObj members) ->
  create_checkout api rq w =
    (internal_server_error,
     push [Log ERROR [Lit "Unexpected error: ";
                      FmtExn (AttributeError "get")]] w).
Proof.
  intros Hj Hno.
  unfold create_checkout, create_checkout_body, pbind, py.
  rewrite Hj. destruct data; try reflexivity. by destruct (Hno members).
Qed.

(** A [plan_type] that is present but is not a string (a number,
    [null], ...) is answered 500, not 400; the processor is not
    called. *)
Theorem checkout_plan_must_be_a_string rq w members v :
  get_json rq = inr (JObj members) ->
  assoc "plan_type" members = Some v ->
  (forall s, v <> JStr s) ->
  create_checkout api rq w =
    (internal_server_error,
     push [Log ERROR [Lit "Unexpected error: ";
                      FmtExn (AttributeError "lower")]] w).
Proof.
  intros Hj Hv Hno.
  unfold create_checkout, create_checkout_body, pbind, py.
  rewrite Hj. cbn [dict_get]. rewrite Hv. cbn [default from_option].
  destruct v; try reflexivity. by destruct (Hno s).
Qed.

(** With a known plan, a [success_url] that is not a string is answered
    500 (the concatenation raises [TypeError]); the processor is not
    called. *)
Theorem checkout_success_url_must_be_a_string rq w data given plan v :
  get_json rq = inr data ->
  dict_get data "plan_type" (JStr "premium") = inr given ->
  str_lower given = inr plan ->
  plan = "basic" \/ plan = "premium" ->
  dict_get data "success_url" (JStr "https://yourdomain.com/success") =
    inr v ->
  (forall s, v <> JStr s) ->
  create_checkout api rq w =
    (internal_server_error,
     push [Log ERROR [Lit "Unexpected error: "; FmtExn TypeError]] w).
Proof.
  intros Hj Hg Hl Hplan Hs Hno.
  assert (Hprice : PRICE_IDS !! plan = Some "price_1RSQMiHYveGHjElbaTQctoS0")
    by (by apply PRICE_IDS_Some).
  apply dict_get_object in Hg as (members & -> & ->).
  unfold create_checkout, create_checkout_body, pbind, py.
  rewrite Hj. cbn [dict_get] in *. rewrite Hl. simplify_eq.
  rewrite Hprice.
  destruct (default _ (assoc "success_url" members)) eqn:Hv;
    try reflexivity.
  by destruct (Hno s).
Qed.

(** Every run of the route is of one of three kinds: the plan is
    refused; something raised before the processor was called; or the
    processor is called with the parameters of the body. *)
Lemma create_checkout_cases rq w :
  create_checkout api rq w = (invalid_plan_type, w) \/
  (exists r,
     create_checkout api rq w =
       (if is_StripeError r then payment_system_error
        else internal_server_error,
        push [Log ERROR [Lit (if is_StripeError r then "Stripe error: "
                              else "Unexpected error: ");
                         fmt_raised r]] w)) \/
  (exists data given plan s cancel email version user,
     get_json rq = inr data /\
     dict_get data "plan_type" (JStr "premium") = inr given /\
     str_lower given = inr plan /\
     (plan = "basic" \/ plan = "premium") /\
     dict_get data "success_url" (JStr "https://yourdomain.com/success") =
       inr (JStr s) /\
     dict_get data "cancel_url" (JStr "https://yourdomain.com/cancel") =
       inr cancel /\
     dict_get data "customer_email" JNull = inr email /\
     dict_get data "app_version" (JStr "unknown") = inr version /\
     dict_get data "user_id" (JStr "anonymous") = inr user).
Proof.
  destruct (get_json rq) as [e | data] eqn:Hj.
  { right; left. exists (Other e).
    unfold create_checkout, create_checkout_body, pbind, py. rewrite Hj.
    by destruct (is_StripeError (Other e)). }
  destruct (dict_get data "plan_type" (JStr "premium")) as [e | given] eqn:Hg.
  { right; left. exists (Other e).
    unfold create_checkout, create_checkout_body, pbind, py. rewrite Hj, Hg.
    by destruct (is_StripeError (Other e)). }
  destruct (str_lower given) as [e | plan] eqn:Hl.
  { right; left. exists (Other e).
    unfold create_checkout, create_checkout_body, pbind, py.
    rewrite Hj, Hg, Hl. by destruct (is_StripeError (Other e)). }
  pose proof Hg as Hobj. apply dict_get_object in Hobj as (members & -> & _).
  destruct (PRICE_IDS !! plan) as [price |] eqn:Hp.
  2:{ left. unfold create_checkout, create_checkout_body, pbind, py, pret.
      rewrite Hj, Hg, Hl. cbn [dict_get]. by rewrite Hp. }
  destruct (default (JStr "https://yourdomain.com/success")
              (assoc "success_url" members)) as [| | | s | |] eqn:Hs.
  4:{ right; right. apply PRICE_IDS_Some in Hp as [Hplan ->].
      exists (JObj members), given, plan, s. do 4 eexists.
      cbn [dict_get]. rewrite Hs. by repeat split. }
  all: right; left; exists (Other TypeError);
    unfold create_checkout, create_checkout_body, pbind, py;
    rewrite Hj, Hg, Hl; cbn [dict_get]; rewrite Hp, Hs; reflexivity.
Qed.

(** The answers of the route.  A failure is one of three fixed bodies,
    which carry no text of the exception; a success comes with status
    200, names a known plan in lower case, and reports the URL and id of
    a session that the processor returned in this very run. *)
Theorem checkout_answers rq w :
  fst (create_checkout api rq w) = invalid_plan_type \/
  fst (create_checkout api rq w) = payment_system_error \/
  fst (create_checkout api rq w) = internal_server_error \/
  (exists params session (st : R) url sid plan,
     sessions_create api params (records w) = (inr session, st) /\
     getattr session "url" = inr url /\
     getattr session "id" = inr sid /\
     (plan = "basic" \/ plan = "premium") /\
     fst (create_checkout api rq w) =
       jsonify (JObj [("success", JBool true);
                      ("checkout_url", url);
                      ("session_id", sid);
                      ("plan_type", JStr plan)])).
Proof.
  destruct (create_checkout_cases rq w)
    as [H | [(r & H) | (data & given & plan & s & cancel & email & version &
                        user & Hj & Hg & Hl & Hplan & Hs & Hc & He & Hv & Hu)]].
  - left. by rewrite H.
  - rewrite H. destruct (is_StripeError r); auto.
  - unfold create_checkout.
    rewrite (create_checkout_body_calls rq w data given plan s cancel email
               version user Hj Hg Hl Hplan Hs Hc He Hv Hu).
    unfold pbind, call, py, plog, pret. cbv zeta.
    destruct (sessions_create api _ (records w)) as [[r | session] st] eqn:Hcall.
    { destruct (is_StripeError r); auto. }
    destruct (getattr session "id") as [e | sid] eqn:Hid;
      [by destruct (is_StripeError (Other e)); auto |].
    destruct (getattr session "url") as [e | url] eqn:Hurl;
      [by destruct (is_StripeError (Other e)); auto |].
    do 3 right. eexists _, session, st, url, sid, plan.
    split; [exact Hcall | done].
Qed.

(** What the route does to the world.  The environment and the clock
    are left alone and at most two lines are logged.  The processor is
    called at most once, and what it is asked for is always a
    subscription paid by card, for one unit of the one price id, whatever
    the plan. *)
Theorem checkout_asks_for_one_subscription rq w :
  environ (snd (create_checkout api rq w)) = environ w /\
  clock (snd (create_checkout api rq w)) = clock w /\
  (exists tr, trace (snd (create_checkout api rq w)) = trace w ++ tr /\
              (List.length tr <= 2)%nat) /\
  (records (snd (create_checkout api rq w)) = records w \/
   exists params,
     records (snd (create_checkout api rq w)) =
       snd (sessions_create api params (records w)) /\
     getitem params "mode" = inr (JStr "subscription") /\
     getitem params "payment_method_types" = inr (JArr [JStr "card"]) /\
     getitem params "line_items" =
       inr (JArr [JObj [("price", JStr "price_1RSQMiHYveGHjElbaTQctoS0");
                        ("quantity", JNum 1)]])).
Proof.
  destruct (create_checkout_cases rq w)
    as [H | [(r & H) | (data & given & plan & s & cancel & email & version &
                        user & Hj & Hg & Hl & Hplan & Hs & Hc & He & Hv & Hu)]].
  - rewrite H. repeat split; [| by left].
    exists []. split; [by rewrite app_nil_r | simpl; lia].
  - rewrite H. repeat split; [| by left].
    eexists. split; [reflexivity | simpl; lia].
  - unfold create_checkout.
    rewrite (create_checkout_body_calls rq w data given plan s cancel email
               version user Hj Hg Hl Hplan Hs Hc He Hv Hu).
    unfold pbind, call, py, plog, pret. cbv zeta.
    destruct (sessions_create api _ (records w)) as [[r | session] st] eqn:Hcall.
    + assert (Hparams :
        exists params,
          st = snd (sessions_create api params (records w)) /\
          getitem params "mode" = inr (JStr "subscription") /\
          getitem params "payment_method_types" = inr (JArr [JStr "card"]) /\
          getitem params "line_items" =
            inr (JArr [JObj [("price", JStr "price_1RSQMiHYveGHjElbaTQctoS0");
                             ("quantity", JNum 1)]])).
      { eexists. rewrite Hcall. split; [reflexivity |].
        by destruct (json_truthy email). }
      destruct (is_StripeError r); cbn [fst snd];
        (split; [reflexivity |]); (split; [reflexivity |]);
        (split; [eexists; split; [reflexivity | simpl; lia] | by right]).
    + assert (Hparams :
        exists params,
          st = snd (sessions_create api params (records w)) /\
          getitem params "mode" = inr (JStr "subscription") /\
          getitem params "payment_method_types" = inr (JArr [JStr "card"]) /\
          getitem params "line_items" =
            inr (JArr [JObj [("price", JStr "price_1RSQMiHYveGHjElbaTQctoS0");
                             ("quantity", JNum 1)]])).
      { eexists. rewrite Hcall. split; [reflexivity |].
        by destruct (json_truthy email). }
      destruct (getattr session "id") as [e | sid] eqn:Hid;
        [| destruct (getattr session "url") as [e | url] eqn:Hurl];
        try destruct (is_StripeError (Other e)); cbn [fst snd];
        (split; [reflexivity |]); (split; [reflexivity |]);
        (split; [| by right]).
      all: eexists; split;
        [simpl; rewrite <- ?app_assoc; reflexivity | simpl; lia].
Qed.

Lemma lower_ascii_idem (a : ascii) : lower_ascii (lower_ascii a) = lower_ascii a.
Proof. by destruct a as [[] [] [] [] [] [] [] []]. Qed.

Lemma lower_idem (s : string) : lower (lower s) = lower s.
Proof.
  induction s as [| a s IH]; [done |]. simpl. by rewrite lower_ascii_idem, IH.
Qed.

Lemma assoc_app (key k : string) (v : json) (pre rest : list (string * json)) :
  assoc key pre = None ->
  assoc key (pre ++ (k, v) :: rest) =
    if String.eqb k key then Some v else assoc key rest.
Proof.
  induction pre as [| [k0 v0] pre IH]; simpl; [done |].
  destruct (String.eqb k0 key); [done | exact IH].
Qed.

(** A body without [plan_type] is treated exactly as the same body with
    [plan_type] set to ['premium']. *)
Theorem missing_plan_means_premium w (members : list (string * json)) :
  assoc "plan_type" members = None ->
  create_checkout api (mkJsonRequest (inr (JObj members))) w =
  create_checkout api
    (mkJsonRequest (inr (JObj (("plan_type", JStr "premium") :: members)))) w.
Proof.
  intros Hnone.
  unfold create_checkout, create_checkout_body, pbind, py.
  cbn [get_json dict_get assoc]. rewrite Hnone.
  reflexivity.
Qed.

Lemma assoc_app_other (key k : string) (v : json)
    (pre rest : list (string * json)) :
  String.eqb k key = false ->
  assoc key (pre ++ (k, v) :: rest) = assoc key (pre ++ rest).
Proof.
  intros Hk. induction pre as [| [k0 v0] pre IH]; simpl.
  - by rewrite Hk.
  - by rewrite IH.
Qed.

(** The plan is compared in lower case: writing the plan of a body in
    lower case changes nothing in what the route does. *)
Theorem plan_is_case_insensitive w (pre rest : list (string * json))
    (s : string) :
  assoc "plan_type" pre = None ->
  create_checkout api
    (mkJsonRequest (inr (JObj (pre ++ ("plan_type", JStr s) :: rest)))) w =
  create_checkout api
    (mkJsonRequest
       (inr (JObj (pre ++ ("plan_type", JStr (lower s)) :: rest)))) w.
Proof.
  intros Hnone.
  unfold create_checkout, create_checkout_body, pbind, py.
  cbn [get_json dict_get].
  rewrite !(assoc_app "plan_type") by exact Hnone.
  rewrite !(assoc_app_other _ "plan_type") by reflexivity.
  cbn [String.eqb Ascii.eqb Bool.eqb default from_option id str_lower].
  rewrite lower_idem. reflexivity.
Qed.

End CreateCheckout.

(** ** The [/verify-payment] route *)

Section VerifyPayment.

Context {R : Type}.
Variable api : Checkout R.
Implicit Types (rq : JsonRequest) (w : World R) (data : json).

(** Without a usable session id (the key missing, [null], an empty
    string, ...) the route answers 400 at once: nothing is logged and the
    processor is not called. *)
Theorem missing_session_id_is_refused rq w data sid :
  get_json rq = inr data ->
  dict_get data "session_id" JNull = inr sid ->
  json_truthy sid = false ->
  verify_payment api rq w = (session_id_required, w) /\
  status session_id_required = 400.
Proof.
  intros Hj Hg Hf. split; [| done].
  unfold verify_payment, verify_payment_body, pbind, py, pret.
  by rewrite Hj, Hg, Hf.
Qed.

(** When the processor raises on the lookup, the error is logged and the
    answer is the generic 400 for an error of the processor and the
    generic 500 for anything else. *)
Theorem verification_failure_of_the_processor rq w data sid (r : raised)
    (st : R) :
  get_json rq = inr data ->
  dict_get data "session_id" JNull = inr sid ->
  json_truthy sid = true ->
  sessions_retrieve api sid (records w) = (inl r, st) ->
  verify_payment api rq w =
    (if is_StripeError r then unable_to_verify else verification_failed,
     mkWorld (environ w) (clock w)
       (trace w ++
        [Log ERROR
           [Lit (if is_StripeError r
                 then "Stripe error during verification: "
                 else "Error during payment verification: ");
            fmt_raised r]])
       st).
Proof.
  intros Hj Hg Ht Hcall.
  unfold verify_payment, verify_payment_body, pbind, py, pret, call.
  rewrite Hj, Hg, Ht. cbn [negb]. rewrite Hcall.
  by destruct (is_StripeError r).
Qed.

Lemma eq_str_true (v : json) (s : string) :
  eq_str v s = true -> v = JStr s.
Proof.
  destruct v; simpl; try discriminate. intros H.
  by apply String.eqb_eq in H as ->.
Qed.

(** The route says [success: true] only for a session that the
    processor returned in this very run with payment status ['paid']. *)
Theorem success_only_if_paid rq w :
  getitem (body (fst (verify_payment api rq w))) "success" =
    inr (JBool true) ->
  exists sid session (st : R),
    json_truthy sid = true /\
    sessions_retrieve api sid (records w) = (inr session, st) /\
    getattr session "payment_status" = inr (JStr "paid") /\
    status (fst (verify_payment api rq w)) = 200.
Proof.
  unfold verify_payment, verify_payment_body, pbind, py, pret, call, plog.
  destruct (get_json rq) as [e | data];
    [by destruct (is_StripeError (Other e)) |].
  destruct (dict_get data "session_id" JNull) as [e | sid];
    [by destruct (is_StripeError (Other e)) |].
  destruct (json_truthy sid) eqn:Ht; [| done]. cbn [negb].
  destruct (sessions_retrieve api sid (records w)) as [[r | session] st]
    eqn:Hcall; [by destruct (is_StripeError r) |].
  destruct (getattr session "payment_status") as [e | ps] eqn:Hps;
    [by destruct (is_StripeError (Other e)) |].
  destruct (eq_str ps "paid") eqn:Hpaid; [| done].
  apply eq_str_true in Hpaid as ->.
  destruct (getattr session "customer_details") as [e | details];
    [by destruct (is_StripeError (Other e)) |].
  destruct (json_truthy details);
    [destruct (getattr details "email") as [e | email];
       [by destruct (is_StripeError (Other e)) |] |];
    (destruct (getattr session "metadata") as [e | metadata];
       [by destruct (is_StripeError (Other e)) |]);
    (destruct (dict_get metadata "plan_type" (JStr "unknown")) as [e | plan];
       [by destruct (is_StripeError (Other e)) |]);
    intros _; by exists sid, session, st.
Qed.

End VerifyPayment.

(** ** The further properties on concrete runs *)

Lemma checkout_completed_is_handled_witness :
  fst (stripe_webhook (Sample.sdk_returning Sample.evt_checkout)
         Sample.request_unsigned (Sample.world Sample.env_both 0)) =
    received /\
  effects_of (Sample.sdk_returning Sample.evt_checkout)
    Sample.request_unsigned (Sample.world Sample.env_both 0) =
    [Call_construct_event Sample.body_1 None "whsec_test";
     Enter checkout_session_completed;
     Log INFO [Lit "Payment completed for session "; Fmt (JStr "cs_test_1")]].
Proof.
  apply (checkout_completed_is_handled
           (Sample.sdk_returning Sample.evt_checkout)
           Sample.request_unsigned (Sample.world Sample.env_both 0)
           "whsec_test" Sample.evt_checkout
           (JObj [("object", JObj [("id", JStr "cs_test_1")])])
           (JObj [("id", JStr "cs_test_1")]) (JStr "cs_test_1")).
  - vm_compute. reflexivity.
  - discriminate.
  - reflexivity.
  - reflexivity.
  - reflexivity.
  - reflexivity.
  - reflexivity.
Defined.

Lemma subscription_created_is_handled_witness :
  fst (stripe_webhook (Sample.sdk_returning PaySample.evt_subscription)
         Sample.request_unsigned (Sample.world Sample.env_both 0)) =
    received /\
  effects_of (Sample.sdk_returning PaySample.evt_subscription)
    Sample.request_unsigned (Sample.world Sample.env_both 0) =
    [Call_construct_event Sample.body_1 None "whsec_test";
     Enter customer_subscription_created;
     Log INFO [Lit "Subscription created: "; Fmt (JStr "sub_1")]].
Proof.
  apply (subscription_created_is_handled
           (Sample.sdk_returning PaySample.evt_subscription)
           Sample.request_unsigned (Sample.world Sample.env_both 0)
           "whsec_test" PaySample.evt_subscription
           (JObj [("object", JObj [("id", JStr "sub_1")])])
           (JObj [("id", JStr "sub_1")]) (JStr "sub_1")).
  - vm_compute. reflexivity.
  - discriminate.
  - reflexivity.
  - reflexivity.
  - reflexivity.
  - reflexivity.
  - reflexivity.
Defined.

Lemma event_without_type_is_rejected_witness :
  fst (stripe_webhook (Sample.sdk_returning PaySample.evt_without_type)
         Sample.request_unsigned (Sample.world Sample.env_both 0)) =
    webhook_failed /\
  effects_of (Sample.sdk_returning PaySample.evt_without_type)
    Sample.request_unsigned (Sample.world Sample.env_both 0) =
    [Call_construct_event Sample.body_1 None "whsec_test";
     Log ERROR [Lit "Webhook error: "; FmtExn (KeyError "type")]].
Proof.
  apply (event_without_type_is_rejected
           (Sample.sdk_returning PaySample.evt_without_type)
           Sample.request_unsigned (Sample.world Sample.env_both 0)
           "whsec_test" PaySample.evt_without_type (KeyError "type")).
  - vm_compute. reflexivity.
  - discriminate.
  - reflexivity.
  - reflexivity.
Defined.

(** The plan ['gold'] is refused although the [success_url] of the body
    is a number. *)
Lemma unknown_plan_is_refused_witness :
  create_checkout PaySample.counting PaySample.gold (PaySample.world 0) =
    (invalid_plan_type, PaySample.world 0) /\
  status invalid_plan_type = 400.
Proof.
  apply (unknown_plan_is_refused PaySample.counting PaySample.gold
           (PaySample.world 0)
           (JObj [("plan_type", JStr "gold"); ("success_url", JNum 7)])
           (JStr "gold") "gold").
  - reflexivity.
  - reflexivity.
  - reflexivity.
  - discriminate.
  - discriminate.
Defined.

Lemma checkout_failure_of_the_processor_witness :
  create_checkout PaySample.failing PaySample.empty_object
    (PaySample.world 0) =
    (payment_system_error,
     mkWorld ∅ 0
       [Log ERROR [Lit "Stripe error: "; Fmt (JStr "No such price")]]
       0%nat).
Proof.
  apply (checkout_failure_of_the_processor PaySample.failing
           PaySample.empty_object (PaySample.world 0)
           (JObj []) (JStr "premium") "premium"
           "https://yourdomain.com/success"
           (JStr "https://yourdomain.com/cancel") JNull
           (JStr "unknown") (JStr "anonymous")
           (StripeError "No such price") 0%nat).
  - reflexivity.
  - reflexivity.
  - reflexivity.
  - by right.
  - reflexivity.
  - reflexivity.
  - reflexivity.
  - reflexivity.
  - reflexivity.
  - reflexivity.
Defined.

Lemma checkout_body_must_be_an_object_witness :
  create_checkout PaySample.counting (PaySample.post (JArr []))
    (PaySample.world 0) =
    (internal_server_error,
     push [Log ERROR [Lit "Unexpected error: ";
                      FmtExn (AttributeError "get")]] (PaySample.world 0)).
Proof.
  apply (checkout_body_must_be_an_object PaySample.counting
           (PaySample.post (JArr [])) (PaySample.world 0) (JArr [])).
  - reflexivity.
  - discriminate.
Defined.

Lemma checkout_plan_must_be_a_string_witness :
  create_checkout PaySample.counting
    (PaySample.post (JObj [("plan_type", JNull)])) (PaySample.world 0) =
    (internal_server_error,
     push [Log ERROR [Lit "Unexpected error: ";
                      FmtExn (AttributeError "lower")]] (PaySample.world 0)).
Proof.
  apply (checkout_plan_must_be_a_string PaySample.counting
           (PaySample.post (JObj [("plan_type", JNull)])) (PaySample.world 0)
           [("plan_type", JNull)] JNull).
  - reflexivity.
  - reflexivity.
  - discriminate.
Defined.

Lemma checkout_success_url_must_be_a_string_witness :
  create_checkout PaySample.counting
    (PaySample.post (JObj [("success_url", JNum 7)])) (PaySample.world 0) =
    (internal_server_error,
     push [Log ERROR [Lit "Unexpected error: "; FmtExn TypeError]]
       (PaySample.world 0)).
Proof.
  apply (checkout_success_url_must_be_a_string PaySample.counting
           (PaySample.post (JObj [("success_url", JNum 7)]))
           (PaySample.world 0) (JObj [("success_url", JNum 7)])
           (JStr "premium") "premium" (JNum 7)).
  - reflexivity.
  - reflexivity.
  - reflexivity.
  - by right.
  - reflexivity.
  - discriminate.
Defined.

Lemma missing_plan_means_premium_witness :
  create_checkout PaySample.counting
    (mkJsonRequest (inr (JObj [("user_id", JStr "u1")])))
    (PaySample.world 0) =
  create_checkout PaySample.counting
    (mkJsonRequest
       (inr (JObj [("plan_type", JStr "premium"); ("user_id", JStr "u1")])))
    (PaySample.world 0).
Proof.
  apply (missing_plan_means_premium PaySample.counting (PaySample.world 0)
           [("user_id", JStr "u1")]).
  reflexivity.
Defined.

Lemma plan_is_case_insensitive_witness :
  create_checkout PaySample.counting
    (mkJsonRequest
       (inr (JObj ([("user_id", JStr "u1")] ++
                   ("plan_type", JStr "Basic") :: []))))
    (PaySample.world 0) =
  create_checkout PaySample.counting
    (mkJsonRequest
       (inr (JObj ([("user_id", JStr "u1")] ++
                   ("plan_type", JStr (lower "Basic")) :: []))))
    (PaySample.world 0).
Proof.
  apply (plan_is_case_insensitive PaySample.counting (PaySample.world 0)
           [("user_id", JStr "u1")] [] "Basic").
  reflexivity.
Defined.

Lemma missing_session_id_is_refused_witness :
  verify_payment PaySample.counting PaySample.empty_object
    (PaySample.world 0) = (session_id_required, PaySample.world 0) /\
  status session_id_required = 400.
Proof.
  apply (missing_session_id_is_refused PaySample.counting
           PaySample.empty_object (PaySample.world 0) (JObj []) JNull).
  - reflexivity.
  - reflexivity.
  - reflexivity.
Defined.

Lemma verification_failure_of_the_processor_witness :
  verify_payment PaySample.failing PaySample.with_session_id
    (PaySample.world 0) =
    (unable_to_verify,
     mkWorld ∅ 0
       [Log ERROR [Lit "Stripe error during verification: ";
                   Fmt (JStr "No such checkout.session")]]
       0%nat).
Proof.
  apply (verification_failure_of_the_processor PaySample.failing
           PaySample.with_session_id (PaySample.world 0)
           (JObj [("session_id", JStr "cs_test_1")]) (JStr "cs_test_1")
           (StripeError "No such checkout.session") 0%nat).
  - reflexivity.
  - reflexivity.
  - reflexivity.
  - reflexivity.
Defined.

Lemma success_only_if_paid_witness :
  exists sid session (st : nat),
    json_truthy sid = true /\
    sessions_retrieve PaySample.counting sid 0%nat = (inr session, st) /\
    getattr session "payment_status" = inr (JStr "paid") /\
    status (fst (verify_payment PaySample.counting PaySample.with_session_id
                   (PaySample.world 0))) = 200.
Proof.
  apply (success_only_if_paid PaySample.counting PaySample.with_session_id
           (PaySample.world 0)).
  reflexivity.
Defined.

